(** * The gin engine: request dispatch, error fallbacks and configuration

    A shallow embedding of the engine source of package [gin]: the
    [Params] lookup,
    the [Engine] constructor and its configuration calls ([Use], [NoRoute],
    [NoMethod], [handle]) and the request dispatch ([serveHTTPRequest],
    [serveAutoRedirect], [serveError]).

    The engine mutates a [*Engine] and a [*Context] in place; here every
    function takes the state and returns the new one.  Go's [int] is [Z],
    a Go [string] and a [[]byte] are a [string] (a sequence of bytes), a
    slice of handlers is a [list] (the [nil] slice is the empty list), the
    [map[string]*node] is a [gmap string node]. *)

From Stdlib Require Import ZArith String Ascii List Bool Lia.
From stdpp Require Import base strings gmap list.

Local Open Scope Z_scope.
Local Open Scope string_scope.
Local Open Scope list_scope.

(** ** URL parameters *)

Record Param := mkParam { Key : string; Value : string }.

Definition Params := list Param.

(** [for _, entry := range ps { if entry.Key == name { return entry.Value } }
    return ""]. *)
Fixpoint ByName (ps : Params) (name : string) : string :=
  match ps with
  | [] => ""
  | entry :: rest =>
      if String.eqb (Key entry) name then Value entry else ByName rest name
  end.

Definition default404Body : string := "404 page not found".
Definition default405Body : string := "405 method not allowed".

(** ** Requests, the response writer and the context *)

(** The two fields of [net/url.URL] a server request carries; the engine
    reads and rewrites [Path] only. *)
Record url_URL := mkURL { Path : string; RawQuery : string }.

Record http_Request := mkRequest { Method : string; URL : url_URL }.

(** Modelled from the spec: the response-writer wrapper, declared outside
    the engine source, which "tracks whether headers/body were already
    written, and the status code".  [header] and [body] are what reaches
    the client. *)
Record responseWriter := mkWriter {
  status : Z;
  written : bool;
  header : gmap string string;
  body : string
}.

(** Modelled from the spec: the per-request [Context], declared outside
    the engine source, with "the current position in the handler chain,
    the response-writer wrapper, the extracted parameters".  [c.Writer]
    and [c.writermem] are the same writer, so one field stands for both. *)
Record Context (H : Type) := mkContext {
  writermem : responseWriter;
  Request : http_Request;
  ctxParams : Params;
  handlers : list H;
  index : Z
}.

Arguments mkContext {H}.
Arguments writermem {H}.
Arguments Request {H}.
Arguments ctxParams {H}.
Arguments handlers {H}.
Arguments index {H}.

(** The two fields of [RouterGroup] that [New] sets besides the back
    pointer to the engine. *)
Record RouterGroup (H : Type) := mkGroup {
  Handlers : list H;
  absolutePath : string
}.

Arguments mkGroup {H}.
Arguments Handlers {H}.
Arguments absolutePath {H}.

(** [Engine]; the embedded [RouterGroup] is the field [group].  The
    renderer and the context pool play no part in routing. *)
Record Engine (H N : Type) := mkEngine {
  group : RouterGroup H;
  allNoRoute : list H;
  allNoMethod : list H;
  noRoute : list H;
  noMethod : list H;
  trees : gmap string N;
  RedirectTrailingSlash : bool;
  RedirectFixedPath : bool;
  HandleMethodNotAllowed : bool
}.

Arguments mkEngine {H N}.
Arguments group {H N}.
Arguments allNoRoute {H N}.
Arguments allNoMethod {H N}.
Arguments noRoute {H N}.
Arguments noMethod {H N}.
Arguments trees {H N}.
Arguments RedirectTrailingSlash {H N}.
Arguments RedirectFixedPath {H N}.
Arguments HandleMethodNotAllowed {H N}.

(** What a configuration call yields: the new state, or a panic with its
    message. *)
Inductive result (A : Type) :=
| Ok (a : A)
| Panic (msg : string).

Arguments Ok {A}.
Arguments Panic {A}.

(** ** The code the engine calls into

    The engine source calls the router tree ([node], [addRoute],
    [getValue], [findCaseInsensitivePath]), the path cleaner
    ([CleanPath]), the router group ([RouterGroup.Use],
    [combineHandlers]), the context ([Next]), the binding package
    ([MIMEPlain]) and [net/url] ([URL.String]), none of which it defines.
    They are taken as they come: every statement below holds for any
    implementation of this interface.

    [getValue] returns [None] for a [nil] handler chain; [addRoute]
    returns the updated node, or the message of its panic. *)
Class Collaborators := {
  HandlerFunc : Type;
  node : Type;
  new_node : node;
  addRoute : node -> string -> list HandlerFunc -> string + node;
  getValue : node -> string -> Params ->
             option (list HandlerFunc) * Params * bool;
  findCaseInsensitivePath : node -> string -> bool -> string * bool;
  CleanPath : string -> string;
  RouterGroup_Use : RouterGroup HandlerFunc -> list HandlerFunc ->
                    RouterGroup HandlerFunc;
  combineHandlers : RouterGroup HandlerFunc -> list HandlerFunc ->
                    list HandlerFunc;
  Next : Context HandlerFunc -> Context HandlerFunc;
  MIMEPlain : string;
  URL_String : url_URL -> string
}.

(** ** Field updates *)

Definition set_writer {H} (c : Context H) (w : responseWriter) : Context H :=
  mkContext w (Request c) (ctxParams c) (handlers c) (index c).

Definition set_Request {H} (c : Context H) (r : http_Request) : Context H :=
  mkContext (writermem c) r (ctxParams c) (handlers c) (index c).

Definition set_Params {H} (c : Context H) (ps : Params) : Context H :=
  mkContext (writermem c) (Request c) ps (handlers c) (index c).

Definition set_handlers {H} (c : Context H) (hs : list H) : Context H :=
  mkContext (writermem c) (Request c) (ctxParams c) hs (index c).

Definition set_index {H} (c : Context H) (i : Z) : Context H :=
  mkContext (writermem c) (Request c) (ctxParams c) (handlers c) i.

Definition set_status (w : responseWriter) (code : Z) : responseWriter :=
  mkWriter code (written w) (header w) (body w).

Definition set_Path (r : http_Request) (p : string) : http_Request :=
  mkRequest (Method r) (mkURL p (RawQuery (URL r))).

Definition set_group {H N} (e : Engine H N) (g : RouterGroup H) : Engine H N :=
  mkEngine g (allNoRoute e) (allNoMethod e) (noRoute e) (noMethod e)
    (trees e) (RedirectTrailingSlash e) (RedirectFixedPath e)
    (HandleMethodNotAllowed e).

Definition set_allNoRoute {H N} (e : Engine H N) (hs : list H) : Engine H N :=
  mkEngine (group e) hs (allNoMethod e) (noRoute e) (noMethod e)
    (trees e) (RedirectTrailingSlash e) (RedirectFixedPath e)
    (HandleMethodNotAllowed e).

Definition set_allNoMethod {H N} (e : Engine H N) (hs : list H) : Engine H N :=
  mkEngine (group e) (allNoRoute e) hs (noRoute e) (noMethod e)
    (trees e) (RedirectTrailingSlash e) (RedirectFixedPath e)
    (HandleMethodNotAllowed e).

Definition set_noRoute {H N} (e : Engine H N) (hs : list H) : Engine H N :=
  mkEngine (group e) (allNoRoute e) (allNoMethod e) hs (noMethod e)
    (trees e) (RedirectTrailingSlash e) (RedirectFixedPath e)
    (HandleMethodNotAllowed e).

Definition set_noMethod {H N} (e : Engine H N) (hs : list H) : Engine H N :=
  mkEngine (group e) (allNoRoute e) (allNoMethod e) (noRoute e) hs
    (trees e) (RedirectTrailingSlash e) (RedirectFixedPath e)
    (HandleMethodNotAllowed e).

Definition set_trees {H N} (e : Engine H N) (t : gmap string N) : Engine H N :=
  mkEngine (group e) (allNoRoute e) (allNoMethod e) (noRoute e) (noMethod e)
    t (RedirectTrailingSlash e) (RedirectFixedPath e)
    (HandleMethodNotAllowed e).

(** ** The writer and the renderer, as the engine uses them *)

(** [c.Writer.Written()] and [c.Writer.Status()]. *)
Definition Written {H} (c : Context H) : bool := written (writermem c).
Definition Status {H} (c : Context H) : Z := status (writermem c).

(** Modelled from the spec: [WriteHeaderNow] of the response writer,
    which flushes the status line and headers "if not already written". *)
Definition WriteHeaderNow {H} (c : Context H) : Context H :=
  if Written c then c
  else set_writer c (mkWriter (Status c) true (header (writermem c))
                       (body (writermem c))).

(** Modelled from the spec: [c.Data], the rendering collaborator: "given a
    status code and a typed payload, produce a serialized body and a
    Content-Type header; negative status code sentinel means do not write
    a status line". *)
Definition Context_Data {H} (c : Context H) (code : Z) (contentType : string)
    (data : string) : Context H :=
  let w := writermem c in
  set_writer c (mkWriter (if (code <? 0)%Z then status w else code) true
                  (<["Content-Type" := contentType]> (header w))
                  (body w +:+ data)).

(** [http.Redirect(w, r, urlStr, code)] of net/http, as far as the engine
    decides it: the [Location] header and the status line it sends.  (The
    short HTML note net/http adds for a GET is not modelled.) *)
Definition http_Redirect {H} (c : Context H) (urlStr : string) (code : Z)
    : Context H :=
  let w := writermem c in
  set_writer c (mkWriter code true (<["Location" := urlStr]> (header w))
                  (body w)).

(** ** Byte access on paths *)

(** [path[len(path)-1] == '/'], for a non-empty [path]. *)
Definition last_is_slash (path : string) : bool :=
  match String.get (String.length path - 1)%nat path with
  | Some ch => Ascii.eqb ch "/"
  | None => false
  end.

(** [path[:len(path)-1]]. *)
Definition drop_last (path : string) : string :=
  String.substring 0 (String.length path - 1)%nat path.

(** The rewrite of [req.URL.Path] in the trailing-slash branch of
    [serveAutoRedirect]. *)
Definition toggle_slash (path : string) : string :=
  if (1 <? String.length path)%nat && last_is_slash path
  then drop_last path
  else path +:+ "/".

(** [code := 301; if req.Method != "GET" { code = 307 }]. *)
Definition redirect_code (method : string) : Z :=
  if negb (String.eqb method "GET") then 307 else 301.

(** Which [return] of [serveHTTPRequest] a request left through, with the
    context as it then is. *)
Inductive served (H : Type) :=
| RouteServed (c : Context H)
| AutoRedirected (c : Context H)
| Served405 (c : Context H)
| Served404 (c : Context H).

Arguments RouteServed {H}.
Arguments AutoRedirected {H}.
Arguments Served405 {H}.
Arguments Served404 {H}.

Definition final_context {H} (s : served H) : Context H :=
  match s with
  | RouteServed c | AutoRedirected c | Served405 c | Served404 c => c
  end.

Section Gin.

Context `{gin : Collaborators}.

(** ** Construction and configuration *)

Definition New : Engine HandlerFunc node :=
  {| group := {| Handlers := []; absolutePath := "/" |};
     allNoRoute := [];
     allNoMethod := [];
     noRoute := [];
     noMethod := [];
     trees := ∅;
     RedirectTrailingSlash := true;
     RedirectFixedPath := true;
     HandleMethodNotAllowed := true |}.

Definition rebuild404Handlers (engine : Engine HandlerFunc node)
    : Engine HandlerFunc node :=
  set_allNoRoute engine (combineHandlers (group engine) (noRoute engine)).

Definition rebuild405Handlers (engine : Engine HandlerFunc node)
    : Engine HandlerFunc node :=
  set_allNoMethod engine (combineHandlers (group engine) (noMethod engine)).

Definition NoRoute (engine : Engine HandlerFunc node)
    (hs : list HandlerFunc) : Engine HandlerFunc node :=
  rebuild404Handlers (set_noRoute engine hs).

Definition NoMethod (engine : Engine HandlerFunc node)
    (hs : list HandlerFunc) : Engine HandlerFunc node :=
  rebuild405Handlers (set_noMethod engine hs).

Definition Use (engine : Engine HandlerFunc node)
    (middlewares : list HandlerFunc) : Engine HandlerFunc node :=
  rebuild405Handlers
    (rebuild404Handlers
       (set_group engine (RouterGroup_Use (group engine) middlewares))).

(** [handle]: [path[0]] on the empty string is Go's index-out-of-range
    panic; a fresh root is stored in the map before [addRoute] fills it in
    place. *)
Definition handle (engine : Engine HandlerFunc node) (method path : string)
    (hs : list HandlerFunc) : result (Engine HandlerFunc node) :=
  match path with
  | EmptyString => Panic "runtime error: index out of range"
  | String ch _ =>
      if negb (Ascii.eqb ch "/") then Panic "path must begin with '/'"
      else
        let root := match trees engine !! method with
                    | Some r => r
                    | None => new_node
                    end in
        match addRoute root path hs with
        | inl msg => Panic msg
        | inr root' =>
            Ok (set_trees engine (<[method := root']> (trees engine)))
        end
  end.

(** ** Dispatch *)

Definition serveError (c : Context HandlerFunc) (code : Z)
    (defaultMessage : string) : Context HandlerFunc :=
  let c1 := Next (set_writer c (set_status (writermem c) code)) in
  if negb (Written c1) then
    if (Status c1 =? code)%Z then Context_Data c1 (-1) MIMEPlain defaultMessage
    else WriteHeaderNow c1
  else c1.

Definition serveAutoRedirect (engine : Engine HandlerFunc node)
    (c : Context HandlerFunc) (root : node) (tsr : bool)
    : Context HandlerFunc * bool :=
  let req := Request c in
  let path := Path (URL req) in
  let code := redirect_code (Method req) in
  if tsr && RedirectTrailingSlash engine then
    let req' := set_Path req (toggle_slash path) in
    (http_Redirect (set_Request c req') (URL_String (URL req')) code, true)
  else if RedirectFixedPath engine then
    let '(fixedPath, found) :=
      findCaseInsensitivePath root (CleanPath path)
        (RedirectTrailingSlash engine) in
    if found then
      let req' := set_Path req fixedPath in
      (http_Redirect (set_Request c req') (URL_String (URL req')) code, true)
    else (c, false)
  else (c, false).

(** The test of the loop over [engine.trees]: an entry of another method
    whose tree has handlers for [path].  The loop leaves at the first such
    entry, and does the same whichever it is. *)
Definition other_method_matches (engine : Engine HandlerFunc node)
    (httpMethod path : string) : bool :=
  existsb (fun '(method, root) =>
             negb (String.eqb method httpMethod) &&
             match getValue root path [] with
             | (Some _, _, _) => true
             | (None, _, _) => false
             end)
          (map_to_list (trees engine)).

(** Lines 224-236: the 405 and 404 fallbacks. *)
Definition serveFallback (engine : Engine HandlerFunc node)
    (c : Context HandlerFunc) (httpMethod path : string)
    : served HandlerFunc :=
  if HandleMethodNotAllowed engine
     && other_method_matches engine httpMethod path
  then Served405 (serveError (set_handlers c (allNoMethod engine)) 405
                    default405Body)
  else Served404 (serveError (set_handlers c (allNoMethod engine)) 404
                    default404Body).

Definition serveHTTPRequest (engine : Engine HandlerFunc node)
    (c : Context HandlerFunc) : served HandlerFunc :=
  let httpMethod := Method (Request c) in
  let path := Path (URL (Request c)) in
  match trees engine !! httpMethod with
  | Some root =>
      match getValue root path (ctxParams c) with
      | (Some hs, params, _) =>
          RouteServed
            (WriteHeaderNow (Next (set_Params (set_handlers c hs) params)))
      | (None, _, tsr) =>
          if negb (String.eqb httpMethod "CONNECT")
             && negb (String.eqb path "/")
          then
            match serveAutoRedirect engine c root tsr with
            | (c', true) => AutoRedirected c'
            | (c', false) => serveFallback engine c' httpMethod path
            end
          else serveFallback engine c httpMethod path
      end
  | None => serveFallback engine c httpMethod path
  end.

End Gin.

(** ** A small implementation of the interface

    A router over literal paths and four kinds of handler, enough to run
    the engine on concrete requests. *)
Module Sample.

(** Handlers as a test suite would register them: a middleware that only
    observes, [c.String(code, s)], [c.Writer.WriteHeader(code)] and
    [c.Abort(code)]. *)
Inductive handler :=
| Pass
| WriteString (code : Z) (s : string)
| SetStatus (code : Z)
| Abort (code : Z).

(** A value past the end of every chain used here. *)
Definition AbortIndex : Z := 63.

(** Modelled from the spec: [Abort] "forces the index to a
    sentinel past-end value and sets the response status to code". *)
Definition call (h : handler) (c : Context handler) : Context handler :=
  match h with
  | Pass => c
  | WriteString code s => Context_Data c code "text/plain" s
  | SetStatus code => set_writer c (set_status (writermem c) code)
  | Abort code =>
      set_index (set_writer c (set_status (writermem c) code)) AbortIndex
  end.

Fixpoint run_chain (fuel : nat) (c : Context handler) : Context handler :=
  match fuel with
  | O => c
  | S fuel' =>
      if (index c <? Z.of_nat (length (handlers c)))%Z then
        match handlers c !! Z.to_nat (index c) with
        | Some h => let c' := call h c in
            run_chain fuel' (set_index c' (index c' + 1))
        | None => c
        end
      else c
  end.

(** Modelled from the spec: [Next] "advances the index and invokes the
    handler at the new index, repeating until the index
    reaches the end of the chain or an abort has been recorded".  None of
    the handlers above moves the index back, so the length of the chain
    bounds the number of rounds. *)
Definition Next (c : Context handler) : Context handler :=
  run_chain (length (handlers c)) (set_index c (index c + 1)).

(** The tree: the registered paths with their chains, in order of
    registration. *)
Definition table := list (string * list handler).

Fixpoint find (t : table) (path : string) : option (list handler) :=
  match t with
  | [] => None
  | (p, hs) :: rest => if String.eqb p path then Some hs else find rest path
  end.

Definition addRoute (t : table) (path : string) (hs : list handler)
    : string + table :=
  match find t path with
  | Some _ => inl "a handle is already registered for this path"
  | None => inr (t ++ [(path, hs)])%list
  end.

(** Modelled from the spec: the flag of [getValue] is "true when no exact
    match exists but a match would exist after toggling a trailing
    slash". *)
Definition getValue (t : table) (path : string) (ps : Params)
    : option (list handler) * Params * bool :=
  match find t path with
  | Some hs => (Some hs, ps, false)
  | None =>
      (None, ps, match find t (toggle_slash path) with
                 | Some _ => true
                 | None => false
                 end)
  end.

Definition lower (a : ascii) : ascii :=
  let n := nat_of_ascii a in
  if (65 <=? n)%nat && (n <=? 90)%nat then ascii_of_nat (n + 32) else a.

Fixpoint lower_string (s : string) : string :=
  match s with
  | EmptyString => EmptyString
  | String a rest => String (lower a) (lower_string rest)
  end.

(** Modelled from the spec: [findCaseInsensitivePath] "attempts to find an
    equivalent registered path by case-insensitive comparison of literal
    segments". *)
Fixpoint findCaseInsensitivePath (t : table) (path : string)
    (fixTrailingSlash : bool) : string * bool :=
  match t with
  | [] => ("", false)
  | (p, _) :: rest =>
      if String.eqb (lower_string p) (lower_string path) then (p, true)
      else findCaseInsensitivePath rest path fixTrailingSlash
  end.

(** Modelled from the spec: a handler chain is "global middleware, then
    group middleware, then the route's own handlers"; [Use] of the router
    group adds to the group's middleware. *)
Definition RouterGroup_Use (g : RouterGroup handler) (mws : list handler)
    : RouterGroup handler :=
  mkGroup (Handlers g ++ mws)%list (absolutePath g).

Definition combineHandlers (g : RouterGroup handler) (hs : list handler)
    : list handler :=
  (Handlers g ++ hs)%list.

(** A URL as it is written when it has a path and a query only. *)
Definition URL_String (u : url_URL) : string :=
  match RawQuery u with
  | EmptyString => Path u
  | q => Path u +:+ "?" +:+ q
  end.

Definition collaborators : Collaborators :=
  Build_Collaborators handler table [] addRoute getValue
    findCaseInsensitivePath (fun p => p) RouterGroup_Use combineHandlers
    Next "text/plain" URL_String.

(** A context as [ServeHTTP] hands it to [serveHTTPRequest]: reset, with
    the request attached. *)
Definition fresh (method path : string) : Context handler :=
  mkContext (mkWriter 200 false ∅ "") (mkRequest method (mkURL path ""))
    [] [] (-1).

(** Registration of a route on an engine that accepts it. *)
Definition register (e : Engine handler table) (method path : string)
    (hs : list handler) : Engine handler table :=
  match handle (gin := collaborators) e method path hs with
  | Ok e' => e'
  | Panic _ => e
  end.

(** One route, [GET /foo]. *)
Definition foo_engine : Engine handler table :=
  register (New (gin := collaborators)) "GET" "/foo" [WriteString 200 "foo"].

(** The same with a tree for CONNECT as well. *)
Definition tunnel_engine : Engine handler table :=
  register foo_engine "CONNECT" "/foo" [Pass].

(** [GET /foo] and a handler for unknown routes. *)
Definition custom404_engine : Engine handler table :=
  NoRoute (gin := collaborators) foo_engine
    [WriteString 404 "custom not found"].

(** [GET /foo] behind a middleware that rejects every request. *)
Definition guarded_engine : Engine handler table :=
  Use (gin := collaborators) foo_engine [Abort 403].

(** [NoRoute], [Use] and [NoMethod] in turn on a new engine. *)
Definition configured_engine : Engine handler table :=
  NoMethod (gin := collaborators)
    (Use (gin := collaborators)
       (NoRoute (gin := collaborators) (New (gin := collaborators))
          [WriteString 404 "custom not found"])
       [Pass])
    [Abort 405].

(** A request for an unknown path, about to be served as an error behind
    the rejecting middleware. *)
Definition rejected : Context handler :=
  set_handlers (fresh "GET" "/bar") [Abort 403].

Definition missing : Context handler := fresh "GET" "/missing".

End Sample.

(** ** Sequences of configuration calls *)

Inductive config_call (H : Type) :=
| CallUse (middlewares : list H)
| CallNoRoute (hs : list H)
| CallNoMethod (hs : list H).

Arguments CallUse {H}.
Arguments CallNoRoute {H}.
Arguments CallNoMethod {H}.

Definition apply_call `{gin : Collaborators} (e : Engine HandlerFunc node)
    (call : config_call HandlerFunc) : Engine HandlerFunc node :=
  match call with
  | CallUse mws => Use e mws
  | CallNoRoute hs => NoRoute e hs
  | CallNoMethod hs => NoMethod e hs
  end.

Definition configure `{gin : Collaborators} (e : Engine HandlerFunc node)
    (calls : list (config_call HandlerFunc)) : Engine HandlerFunc node :=
  fold_left apply_call calls e.

(** Both combined chains are up to date. *)
Definition chains_ok `{gin : Collaborators} (e : Engine HandlerFunc node)
    : Prop :=
  allNoRoute e = combineHandlers (group e) (noRoute e) /\
  allNoMethod e = combineHandlers (group e) (noMethod e).

(** ** Observations on an outcome *)

Definition is_405 {H} (s : served H) : bool :=
  match s with Served405 _ => true | _ => false end.


(** The tree of another method resolves [path] to a handler chain. *)
Definition other_method_has_route `{gin : Collaborators}
    (e : Engine HandlerFunc node) (httpMethod path : string) : Prop :=
  exists method root hs ps tsr,
    trees e !! method = Some root /\
    method <> httpMethod /\
    getValue root path [] = (Some hs, ps, tsr).

(** The context when the handler chain of [serveError] has returned. *)
Definition after_chain `{gin : Collaborators} (c : Context HandlerFunc)
    (code : Z) : Context HandlerFunc :=
  Next (set_writer c (set_status (writermem c) code)).

(** [serveError] added the default body to what the chain left. *)
Definition default_body_added `{gin : Collaborators} (c : Context HandlerFunc)
    (code : Z) (msg : string) : Prop :=
  body (writermem (serveError c code msg)) =
  body (writermem (after_chain c code)) +:+ msg.

(** The default body is added if and only if no handler wrote. *)
Definition default_iff_unwritten `{gin : Collaborators}
    (c : Context HandlerFunc) (code : Z) (msg : string) : Prop :=
  default_body_added c code msg <-> Written (after_chain c code) = false.

(** The engine with [GET /foo] after
    [engine.RedirectTrailingSlash = false], [engine.RedirectFixedPath =
    false] and [engine.HandleMethodNotAllowed = false]. *)
Module Fixtures.

Definition strict_engine : Engine Sample.handler Sample.table :=
  mkEngine (group Sample.foo_engine) (allNoRoute Sample.foo_engine)
    (allNoMethod Sample.foo_engine) (noRoute Sample.foo_engine)
    (noMethod Sample.foo_engine) (trees Sample.foo_engine) false false false.

(** [GET /foo] and then [GET /bar]. *)
Definition two_routes : Engine Sample.handler Sample.table :=
  Sample.register Sample.foo_engine "GET" "/bar" [Sample.Pass].

(** A request about to be served as an error behind a middleware that
    only observes. *)
Definition observed : Context Sample.handler :=
  set_handlers (Sample.fresh "GET" "/bar") [Sample.Pass].

End Fixtures.

(** ** [Default] *)

(** [engine := New(); engine.Use(Recovery(), Logger())]: the two
    middlewares are built outside the engine source and come as
    arguments. *)
Definition Default `{gin : Collaborators} (recovery logger : HandlerFunc)
    : Engine HandlerFunc node :=
  Use New [recovery; logger].

(** ** The chat example's handlers

    The string handling of [roomGET] and [roomPOST] in the example's
    routes; [len] counts bytes. *)
Module Routes.

(** The nick [roomGET] hands to its template:
    [if len(nick) < 2 { nick = "" }] and then
    [if len(nick) > 13 { nick = nick[0:12] + "..." }]. *)
Definition roomGET_nick (nick : string) : string :=
  let nick1 := if (String.length nick <? 2)%nat then "" else nick in
  if (13 <? String.length nick1)%nat
  then String.substring 0 12 nick1 +:+ "..."
  else nick1.

(** [validMessage := len(message) > 1 && len(message) < 200], on the
    message as [strings.TrimSpace] left it. *)
Definition validMessage (message : string) : bool :=
  (1 <? String.length message)%nat && (String.length message <? 200)%nat.

(** [validNick := len(nick) > 1 && len(nick) < 14]. *)
Definition validNick (nick : string) : bool :=
  (1 <? String.length nick)%nat && (String.length nick <? 14)%nat.

(** [roomPOST] answers 400 when [!validMessage || !validNick], and posts
    the message otherwise. *)
Definition roomPOST_accepts (nick message : string) : bool :=
  negb (negb (validMessage message) || negb (validNick nick)).

End Routes.

(** * Properties *)

(** ** Paths as byte strings *)

Lemma append_cons (a : ascii) (s t : string) :
  String a s +:+ t = String a (s +:+ t).
Proof. reflexivity. Qed.

Lemma append_empty_r (s : string) : s +:+ "" = s.
Proof.
  induction s as [| a s IH]; [reflexivity |].
  rewrite append_cons. now f_equal.
Qed.

Lemma append_slash_length (p : string) :
  String.length (p +:+ "/") = S (String.length p).
Proof.
  induction p as [| a p IH]; [reflexivity |].
  rewrite append_cons. simpl. now f_equal.
Qed.

Lemma append_slash_get (p : string) :
  String.get (String.length p) (p +:+ "/") = Some "/"%char.
Proof.
  induction p as [| a p IH]; [reflexivity |].
  rewrite append_cons. simpl. exact IH.
Qed.

Lemma append_slash_substring (p : string) :
  String.substring 0 (String.length p) (p +:+ "/") = p.
Proof.
  induction p as [| a p IH]; [reflexivity |].
  rewrite append_cons. simpl. now f_equal.
Qed.

(** A path that ends in a slash and is longer than ["/"] loses the
    slash. *)
Lemma toggle_slash_remove (p : string) :
  p <> "" -> toggle_slash (p +:+ "/") = p.
Proof.
  intros Hp. unfold toggle_slash, last_is_slash, drop_last.
  rewrite append_slash_length. simpl. rewrite Nat.sub_0_r.
  rewrite append_slash_get, append_slash_substring.
  destruct p as [| a p]; [contradiction | reflexivity].
Qed.

(** Any other path gets one. *)
Lemma toggle_slash_append (path : string) :
  last_is_slash path = false \/ (String.length path <= 1)%nat ->
  toggle_slash path = path +:+ "/".
Proof.
  unfold toggle_slash. intros [-> | Hlen].
  - now rewrite andb_false_r.
  - apply Nat.ltb_ge in Hlen. now rewrite Hlen.
Qed.

(** ** [Params.ByName] *)

Lemma ByName_skip (before : Params) (rest : Params) (name : string) :
  Forall (fun p => Key p <> name) before ->
  ByName (before ++ rest) name = ByName rest name.
Proof.
  induction 1 as [| p before Hp _ IH]; simpl; [reflexivity |].
  apply String.eqb_neq in Hp. rewrite Hp. exact IH.
Qed.

(** C8: [ByName] returns the value of the first pair whose key is the
    name, whatever follows it (later pairs of the same name are never
    reached), and the empty string when no pair has that key. *)
Theorem ByName_first_match (ps : Params) (name : string) :
  (forall before entry after,
      ps = (before ++ entry :: after)%list ->
      Forall (fun p => Key p <> name) before ->
      Key entry = name ->
      ByName ps name = Value entry) /\
  (Forall (fun p => Key p <> name) ps -> ByName ps name = "").
Proof.
  split.
  - intros before entry after -> Hbefore Hkey.
    rewrite ByName_skip by assumption. simpl.
    apply String.eqb_eq in Hkey. now rewrite Hkey.
  - intros Hnone. rewrite <- (app_nil_r ps).
    now rewrite ByName_skip.
Qed.

Lemma ByName_first_match_witness :
  ByName [mkParam "id" "1"; mkParam "x" "2"; mkParam "id" "3"] "id" = "1" /\
  ByName [mkParam "x" "2"; mkParam "id" "3"; mkParam "id" "4"] "id" = "3" /\
  ByName [mkParam "x" "2"; mkParam "y" "3"] "id" = "".
Proof.
  split; [| split].
  - apply (proj1 (ByName_first_match _ "id") [] (mkParam "id" "1")
             [mkParam "x" "2"; mkParam "id" "3"]);
      [reflexivity | constructor | reflexivity].
  - apply (proj1 (ByName_first_match _ "id") [mkParam "x" "2"]
             (mkParam "id" "3") [mkParam "id" "4"]);
      [reflexivity | repeat constructor; discriminate | reflexivity].
  - apply (proj2 (ByName_first_match _ "id")).
    repeat constructor; discriminate.
Defined.

Section Configuration.

Context `{gin : Collaborators}.

(** ** [New] *)

(** C9: the engine [New] returns has the three switches on, no tree for
    any method and no middleware (nor any not-found or not-allowed
    handler). *)
Theorem New_defaults :
  RedirectTrailingSlash New = true /\
  RedirectFixedPath New = true /\
  HandleMethodNotAllowed New = true /\
  trees New = ∅ /\
  (forall method, trees New !! method = None) /\
  Handlers (group New) = [] /\
  absolutePath (group New) = "/" /\
  noRoute New = [] /\ noMethod New = [] /\
  allNoRoute New = [] /\ allNoMethod New = [].
Proof.
  repeat split.
Qed.

(** ** [Use], [NoRoute], [NoMethod] *)

Lemma Use_chains_ok (e : Engine HandlerFunc node) (mws : list HandlerFunc) :
  chains_ok (Use e mws).
Proof. split; reflexivity. Qed.

Lemma NoRoute_chains_ok (e : Engine HandlerFunc node) (hs : list HandlerFunc) :
  chains_ok e -> chains_ok (NoRoute e hs).
Proof. intros [_ H405]. split; [reflexivity | exact H405]. Qed.

Lemma NoMethod_chains_ok (e : Engine HandlerFunc node) (hs : list HandlerFunc) :
  chains_ok e -> chains_ok (NoMethod e hs).
Proof. intros [H404 _]. split; [exact H404 | reflexivity]. Qed.

Lemma apply_call_chains_ok (e : Engine HandlerFunc node)
    (call : config_call HandlerFunc) :
  chains_ok e -> chains_ok (apply_call e call).
Proof.
  destruct call; simpl.
  - intros _. apply Use_chains_ok.
  - apply NoRoute_chains_ok.
  - apply NoMethod_chains_ok.
Qed.

Lemma configure_chains_ok (calls : list (config_call HandlerFunc)) :
  forall e, chains_ok e -> chains_ok (configure e calls).
Proof.
  induction calls as [| call calls IH]; intros e He; simpl; [exact He |].
  apply IH. now apply apply_call_chains_ok.
Qed.

(** C10: on an engine made by [New] (where combining no middleware with
    no handlers gives the empty chain), after any sequence of [Use],
    [NoRoute] and [NoMethod] calls [allNoRoute] is the middleware combined
    with the [NoRoute] handlers and [allNoMethod] the middleware combined
    with the [NoMethod] handlers; every single call keeps both equations,
    and [Use] brings them about from any state. *)
Theorem chains_ok_invariant :
  combineHandlers (group New) [] = [] ->
  (forall calls,
      let e := configure New calls in
      allNoRoute e = combineHandlers (group e) (noRoute e) /\
      allNoMethod e = combineHandlers (group e) (noMethod e)) /\
  (forall e call, chains_ok e -> chains_ok (apply_call e call)) /\
  (forall e mws, chains_ok (Use e mws)).
Proof.
  intros Hnil. split; [| split].
  - intros calls. apply configure_chains_ok.
    split; simpl; symmetry; exact Hnil.
  - apply apply_call_chains_ok.
  - apply Use_chains_ok.
Qed.

End Configuration.

Section Dispatch.

Context `{gin : Collaborators}.

(** ** [handle] *)

(** C7: [handle] panics with its own message on every pattern whose first
    byte is not a slash (and with Go's index error on the empty pattern);
    on a pattern that begins with a slash it goes on to [addRoute] on the
    method's root, a new one if the method had none, and the outcome is
    that of [addRoute]. *)
Theorem handle_leading_slash (e : Engine HandlerFunc node) (method : string)
    (hs : list HandlerFunc) :
  (forall ch rest,
      ch <> "/"%char ->
      handle e method (String ch rest) hs = Panic "path must begin with '/'") /\
  (exists msg, handle e method "" hs = Panic msg) /\
  (forall rest,
      handle e method (String "/" rest) hs =
      match addRoute (match trees e !! method with
                      | Some r => r
                      | None => new_node
                      end) (String "/" rest) hs with
      | inl msg => Panic msg
      | inr root' => Ok (set_trees e (<[method := root']> (trees e)))
      end).
Proof.
  split; [| split].
  - intros ch rest Hch. unfold handle.
    apply Ascii.eqb_neq in Hch. now rewrite Hch.
  - eexists. reflexivity.
  - intros rest. reflexivity.
Qed.

(** ** The fallbacks *)

Lemma serveAutoRedirect_false (e : Engine HandlerFunc node)
    (c c' : Context HandlerFunc) (root : node) (tsr : bool) :
  serveAutoRedirect e c root tsr = (c', false) -> c' = c.
Proof.
  unfold serveAutoRedirect.
  destruct (tsr && RedirectTrailingSlash e); [discriminate |].
  destruct (RedirectFixedPath e); [| now intros [= <-]].
  destruct (findCaseInsensitivePath _ _ _) as [fixedPath [|]];
    [discriminate | now intros [= <-]].
Qed.

Lemma other_method_matches_spec (e : Engine HandlerFunc node)
    (httpMethod path : string) :
  other_method_matches e httpMethod path = true <->
  other_method_has_route e httpMethod path.
Proof.
  unfold other_method_matches, other_method_has_route.
  rewrite existsb_exists. split.
  - intros [[method root] [Hin Htest]].
    apply list_elem_of_In, elem_of_map_to_list in Hin.
    apply andb_true_iff in Htest as [Hne Hget].
    apply negb_true_iff, String.eqb_neq in Hne.
    destruct (getValue root path []) as [[[hs |] ps] tsr] eqn:Hgv;
      [| discriminate].
    exists method, root, hs, ps, tsr. auto.
  - intros (method & root & hs & ps & tsr & Hlook & Hne & Hgv).
    exists (method, root). split.
    + apply list_elem_of_In, elem_of_map_to_list. exact Hlook.
    + rewrite Hgv. apply String.eqb_neq in Hne. now rewrite Hne.
Qed.

(** A request that falls through to lines 224-236 is served by
    [serveFallback] on the context it came with. *)
Lemma serveHTTPRequest_fallback (e : Engine HandlerFunc node)
    (c : Context HandlerFunc) :
  (forall c', serveHTTPRequest e c <> RouteServed c') ->
  (forall c', serveHTTPRequest e c <> AutoRedirected c') ->
  serveHTTPRequest e c =
  serveFallback e c (Method (Request c)) (Path (URL (Request c))).
Proof.
  unfold serveHTTPRequest. intros Hroute Hredirect.
  destruct (trees e !! Method (Request c)) as [root |]; [| reflexivity].
  destruct (getValue root _ _) as [[[hs |] params] tsr].
  { exfalso. eapply Hroute. reflexivity. }
  destruct (negb _ && negb _); [| reflexivity].
  destruct (serveAutoRedirect e c root tsr) as [c' [|]] eqn:Hauto.
  { exfalso. eapply Hredirect. reflexivity. }
  apply serveAutoRedirect_false in Hauto. now subst c'.
Qed.

(** Whenever the engine serves a 404, the chain it has run is
    [allNoMethod]: [allNoRoute] is never read by the dispatch. *)
Lemma served404_chain (e : Engine HandlerFunc node)
    (c c' : Context HandlerFunc) :
  serveHTTPRequest e c = Served404 c' ->
  c' = serveError (set_handlers c (allNoMethod e)) 404 default404Body.
Proof.
  intros Hserved.
  rewrite serveHTTPRequest_fallback in Hserved.
  - unfold serveFallback in Hserved.
    destruct (_ && _); [discriminate Hserved |].
    now injection Hserved as <-.
  - intros c''. rewrite Hserved. discriminate.
  - intros c''. rewrite Hserved. discriminate.
Qed.


(** ** Automatic redirects *)

Lemma redirect_code_spec (method : string) :
  (method = "GET" -> redirect_code method = 301) /\
  (method <> "GET" -> redirect_code method = 307).
Proof.
  unfold redirect_code. split.
  - intros ->. reflexivity.
  - intros Hne. apply String.eqb_neq in Hne. now rewrite Hne.
Qed.

(** When [serveAutoRedirect] reports a redirect, it has rewritten the
    request path and called [http.Redirect] with the URL so rewritten and
    the code of the method. *)
Lemma serveAutoRedirect_true (e : Engine HandlerFunc node)
    (c c' : Context HandlerFunc) (root : node) (tsr : bool) :
  serveAutoRedirect e c root tsr = (c', true) ->
  exists newPath,
    let req' := set_Path (Request c) newPath in
    c' = http_Redirect (set_Request c req') (URL_String (URL req'))
           (redirect_code (Method (Request c))).
Proof.
  unfold serveAutoRedirect.
  destruct (tsr && RedirectTrailingSlash e).
  { intros [= <-]. eexists. reflexivity. }
  destruct (RedirectFixedPath e); [| discriminate].
  destruct (findCaseInsensitivePath _ _ _) as [fixedPath [|]]; [| discriminate].
  intros [= <-]. eexists. reflexivity.
Qed.

(** An automatic redirect comes from [serveAutoRedirect], on a request
    whose method has a tree without handlers for the path, that is not a
    CONNECT and not for the root. *)
Lemma serveHTTPRequest_redirected (e : Engine HandlerFunc node)
    (c c' : Context HandlerFunc) :
  serveHTTPRequest e c = AutoRedirected c' ->
  Method (Request c) <> "CONNECT" /\
  Path (URL (Request c)) <> "/" /\
  exists root ps tsr,
    trees e !! Method (Request c) = Some root /\
    getValue root (Path (URL (Request c))) (ctxParams c) = (None, ps, tsr) /\
    serveAutoRedirect e c root tsr = (c', true).
Proof.
  unfold serveHTTPRequest, serveFallback.
  destruct (trees e !! Method (Request c)) as [root |] eqn:Htree;
    [| destruct (_ && _); discriminate].
  destruct (getValue root _ _) as [[[hs |] ps] tsr] eqn:Hget; [discriminate |].
  destruct (String.eqb_spec (Method (Request c)) "CONNECT") as [Hm | Hm]; simpl;
    [destruct (_ && _); discriminate |].
  destruct (String.eqb_spec (Path (URL (Request c))) "/") as [Hp | Hp]; simpl;
    [destruct (_ && _); discriminate |].
  destruct (serveAutoRedirect e c root tsr) as [c1 [|]] eqn:Hauto;
    [| destruct (_ && _); discriminate].
  intros [= <-]. split; [exact Hm |]. split; [exact Hp |].
  exists root, ps, tsr. auto.
Qed.

(** C2: every redirect [serveAutoRedirect] issues, by the trailing slash
    or by the fixed path, and so every automatic redirect of the engine,
    has status 301 when the method is GET and 307 when it is any other. *)
Theorem auto_redirect_status (e : Engine HandlerFunc node)
    (c c' : Context HandlerFunc) :
  (forall root tsr,
      serveAutoRedirect e c root tsr = (c', true) ->
      (Method (Request c) = "GET" -> Status c' = 301) /\
      (Method (Request c) <> "GET" -> Status c' = 307)) /\
  (serveHTTPRequest e c = AutoRedirected c' ->
   (Method (Request c) = "GET" -> Status c' = 301) /\
   (Method (Request c) <> "GET" -> Status c' = 307)).
Proof.
  assert (Hauto : forall root tsr,
             serveAutoRedirect e c root tsr = (c', true) ->
             Status c' = redirect_code (Method (Request c))).
  { intros root tsr Hr. apply serveAutoRedirect_true in Hr as [newPath ->].
    reflexivity. }
  split.
  - intros root tsr Hr. rewrite (Hauto root tsr Hr). apply redirect_code_spec.
  - intros Hserved.
    apply serveHTTPRequest_redirected
      in Hserved as (_ & _ & root & ps & tsr & _ & _ & Hr).
    rewrite (Hauto root tsr Hr). apply redirect_code_spec.
Qed.

(** C5: the engine issues an automatic redirect only for a request that
    is not a CONNECT and not for the root path; a CONNECT request, or one
    for ["/"], is either dispatched to its route or handed unchanged to
    the 405/404 fallback. *)
Theorem auto_redirect_guard (e : Engine HandlerFunc node)
    (c : Context HandlerFunc) :
  (forall c', serveHTTPRequest e c = AutoRedirected c' ->
              Method (Request c) <> "CONNECT" /\ Path (URL (Request c)) <> "/") /\
  (Method (Request c) = "CONNECT" \/ Path (URL (Request c)) = "/" ->
   (forall c', serveHTTPRequest e c <> AutoRedirected c') /\
   ((exists c', serveHTTPRequest e c = RouteServed c') \/
    serveHTTPRequest e c =
    serveFallback e c (Method (Request c)) (Path (URL (Request c))))).
Proof.
  split.
  - intros c' Hserved.
    apply serveHTTPRequest_redirected in Hserved as (Hm & Hp & _). auto.
  - intros Hguard.
    assert (Hnever : forall c', serveHTTPRequest e c <> AutoRedirected c').
    { intros c' Hserved.
      apply serveHTTPRequest_redirected in Hserved as (Hm & Hp & _).
      destruct Hguard; contradiction. }
    split; [exact Hnever |].
    destruct (serveHTTPRequest e c) as [c' | c' | c' | c'] eqn:Hserved.
    + left. eauto.
    + exfalso. now apply (Hnever c').
    + right. rewrite <- Hserved. apply serveHTTPRequest_fallback.
      * intros c''. rewrite Hserved. discriminate.
      * intros c''. rewrite Hserved. discriminate.
    + right. rewrite <- Hserved. apply serveHTTPRequest_fallback.
      * intros c''. rewrite Hserved. discriminate.
      * intros c''. rewrite Hserved. discriminate.
Qed.

(** C4: with [RedirectTrailingSlash] on, a request (not a CONNECT, not
    for the root) whose lookup finds no handlers but reports a
    trailing-slash candidate is answered by a redirect; the request path
    and the [Location] are the path with its trailing slash removed when
    it ends in one and is longer than ["/"] (so [/foo] for [/foo/]) and
    with a slash appended otherwise; the status is 301 for GET and 307
    for POST and every other method. *)
Theorem trailing_slash_redirect (e : Engine HandlerFunc node)
    (c : Context HandlerFunc) (root : node) (ps : Params) :
  let httpMethod := Method (Request c) in
  let path := Path (URL (Request c)) in
  trees e !! httpMethod = Some root ->
  getValue root path (ctxParams c) = (None, ps, true) ->
  RedirectTrailingSlash e = true ->
  httpMethod <> "CONNECT" ->
  path <> "/" ->
  exists c',
    serveHTTPRequest e c = AutoRedirected c' /\
    header (writermem c') !! "Location" =
      Some (URL_String (mkURL (Path (URL (Request c')))
                          (RawQuery (URL (Request c))))) /\
    Path (URL (Request c')) = toggle_slash path /\
    (forall p, path = p +:+ "/" -> p <> "" -> Path (URL (Request c')) = p) /\
    (last_is_slash path = false -> Path (URL (Request c')) = path +:+ "/") /\
    (httpMethod = "GET" -> Status c' = 301) /\
    (httpMethod = "POST" -> Status c' = 307) /\
    (httpMethod <> "GET" -> Status c' = 307).
Proof.
  intros httpMethod path Htree Hget Htsr Hm Hp.
  eexists. split.
  - unfold serveHTTPRequest. fold httpMethod path. rewrite Htree, Hget.
    apply String.eqb_neq in Hm, Hp. rewrite Hm, Hp. simpl.
    unfold serveAutoRedirect. rewrite Htsr. simpl. reflexivity.
  - cbn [http_Redirect set_writer set_Request set_Path writermem Request URL
           Path RawQuery Status status header Method].
    fold httpMethod path.
    split; [apply lookup_insert_eq |].
    split; [reflexivity |].
    split; [intros p -> Hne; now apply toggle_slash_remove |].
    split; [intros Hlast; apply toggle_slash_append; now left |].
    destruct (redirect_code_spec httpMethod) as [Hget301 Hother].
    repeat split; auto.
    intros Hpost. apply Hother. rewrite Hpost. discriminate.
Qed.

(** ** [serveError] *)

(** C3, as the code has it: what the chain wrote is left as it is; when
    the chain wrote nothing and left the status at the error code, the
    default body is added; when it wrote nothing but set another status,
    the headers are written with that status and no body.  So the default
    body is added if and only if no handler wrote and the status is still
    the one [serveError] set. *)
Theorem serveError_default_body (c : Context HandlerFunc) (code : Z)
    (msg : string) :
  msg <> "" ->
  let c1 := after_chain c code in
  (Written c1 = true -> serveError c code msg = c1) /\
  (Written c1 = false -> Status c1 = code ->
   serveError c code msg = Context_Data c1 (-1) MIMEPlain msg /\
   body (writermem (serveError c code msg)) = body (writermem c1) +:+ msg /\
   Status (serveError c code msg) = code) /\
  (Written c1 = false -> Status c1 <> code ->
   serveError c code msg = WriteHeaderNow c1 /\
   body (writermem (serveError c code msg)) = body (writermem c1) /\
   Status (serveError c code msg) = Status c1) /\
  (default_body_added c code msg <-> Written c1 = false /\ Status c1 = code).
Proof.
  intros Hmsg c1.
  assert (Hsame : forall s : string, s = s +:+ msg -> False).
  { intros s Hs. apply Hmsg. rewrite <- (append_empty_r s) in Hs at 1.
    apply (inj (String.append s)) in Hs. now symmetry. }
  unfold default_body_added, serveError. fold (after_chain c code). fold c1.
  destruct (Written c1) eqn:Hw; simpl.
  - split; [reflexivity |].
    split; [intros Hd; discriminate Hd |].
    split; [intros Hd; discriminate Hd |].
    split.
    + intros Hbody. exfalso. exact (Hsame _ Hbody).
    + intros [Hd _]. discriminate Hd.
  - destruct (Z.eqb_spec (Status c1) code) as [Hs | Hs].
    + split; [intros Hd; discriminate Hd |].
      split; [intros _ _; repeat split; exact Hs |].
      split; [intros _ Hne; contradiction |].
      split; [auto | reflexivity].
    + unfold WriteHeaderNow. rewrite Hw.
      split; [intros Hd; discriminate Hd |].
      split; [intros _ Heq; contradiction |].
      split; [intros _ _; repeat split |].
      split.
      * intros Hbody. exfalso. exact (Hsame _ Hbody).
      * intros [_ Heq]. contradiction.
Qed.

End Dispatch.

(** * The engine on concrete requests *)

Section Examples.

Import Sample.

Local Abbreviation serve := (serveHTTPRequest (gin := collaborators)).

Lemma handle_leading_slash_witness :
  handle (gin := collaborators) New "GET" "foo" [Pass]
    = Panic "path must begin with '/'" /\
  handle (gin := collaborators) New "GET" "/foo" [Pass]
    = Ok (set_trees New {["GET" := [("/foo", [Pass])]]}).
Proof.
  destruct (handle_leading_slash (gin := collaborators) New "GET" [Pass])
    as (Hbad & _ & Hgood).
  split.
  - apply Hbad. discriminate.
  - rewrite Hgood. reflexivity.
Defined.

Lemma chains_ok_invariant_witness :
  allNoRoute configured_engine = [Pass; WriteString 404 "custom not found"] /\
  allNoMethod configured_engine = [Pass; Abort 405].
Proof.
  destruct (chains_ok_invariant (gin := collaborators) eq_refl)
    as (Hreach & _ & _).
  destruct (Hreach [CallNoRoute [WriteString 404 "custom not found"];
                    CallUse [Pass]; CallNoMethod [Abort 405]])
    as [H404 H405].
  split.
  - etransitivity; [exact H404 | reflexivity].
  - etransitivity; [exact H405 | reflexivity].
Defined.


Lemma auto_redirect_status_witness :
  Status (final_context (serve foo_engine (fresh "GET" "/foo/"))) = 301 /\
  Status (final_context (serve foo_engine (fresh "GET" "/FOO"))) = 301 /\
  Status (final_context (serve (register foo_engine "POST" "/bar" [Pass])
                           (fresh "POST" "/bar/"))) = 307 /\
  Status (final_context (serve (register foo_engine "DELETE" "/bar" [Pass])
                           (fresh "DELETE" "/BAR"))) = 307.
Proof.
  split; [| split; [| split]].
  - apply (proj2 (auto_redirect_status (gin := collaborators) foo_engine
                    (fresh "GET" "/foo/") _));
      [vm_compute; reflexivity | reflexivity].
  - apply (proj2 (auto_redirect_status (gin := collaborators) foo_engine
                    (fresh "GET" "/FOO") _));
      [vm_compute; reflexivity | reflexivity].
  - apply (proj2 (auto_redirect_status (gin := collaborators)
                    (register foo_engine "POST" "/bar" [Pass])
                    (fresh "POST" "/bar/") _));
      [vm_compute; reflexivity | discriminate].
  - apply (proj2 (auto_redirect_status (gin := collaborators)
                    (register foo_engine "DELETE" "/bar" [Pass])
                    (fresh "DELETE" "/BAR") _));
      [vm_compute; reflexivity | discriminate].
Defined.

Lemma auto_redirect_guard_witness :
  (forall c', serve tunnel_engine (fresh "CONNECT" "/foo/") <> AutoRedirected c') /\
  (forall c', serve foo_engine (fresh "GET" "/") <> AutoRedirected c').
Proof.
  split.
  - apply (proj2 (auto_redirect_guard (gin := collaborators) tunnel_engine
                    (fresh "CONNECT" "/foo/"))).
    left. reflexivity.
  - apply (proj2 (auto_redirect_guard (gin := collaborators) foo_engine
                    (fresh "GET" "/"))).
    right. reflexivity.
Defined.

Lemma trailing_slash_redirect_witness :
  (exists c',
      serve foo_engine (fresh "GET" "/foo/") = AutoRedirected c' /\
      header (writermem c') !! "Location" = Some "/foo" /\
      Status c' = 301) /\
  (exists c',
      serve (register foo_engine "POST" "/foo" [Pass]) (fresh "POST" "/foo/")
        = AutoRedirected c' /\
      header (writermem c') !! "Location" = Some "/foo" /\
      Status c' = 307).
Proof.
  split.
  - destruct (trailing_slash_redirect (gin := collaborators) foo_engine
                (fresh "GET" "/foo/") [("/foo", [WriteString 200 "foo"])] [])
      as (c' & Hserved & Hloc & _ & Hremoved & _ & Hget & _ & _);
      [reflexivity | reflexivity | reflexivity | discriminate | discriminate |].
    exists c'. split; [exact Hserved |]. split; [| apply Hget; reflexivity].
    rewrite Hloc, (Hremoved "/foo"); [reflexivity | reflexivity | discriminate].
  - destruct (trailing_slash_redirect (gin := collaborators)
                (register foo_engine "POST" "/foo" [Pass])
                (fresh "POST" "/foo/") [("/foo", [Pass])] [])
      as (c' & Hserved & Hloc & _ & Hremoved & _ & _ & Hpost & _);
      [reflexivity | reflexivity | reflexivity | discriminate | discriminate |].
    exists c'. split; [exact Hserved |]. split; [| apply Hpost; reflexivity].
    rewrite Hloc, (Hremoved "/foo"); [reflexivity | reflexivity | discriminate].
Defined.

Lemma serveError_default_body_witness :
  body (writermem (serveError (gin := collaborators)
                     (set_handlers (fresh "GET" "/bar") [Pass]) 404
                     default404Body)) = "404 page not found" /\
  body (writermem (serveError (gin := collaborators)
                     (set_handlers (fresh "GET" "/bar")
                        [WriteString 404 "custom not found"]) 404
                     default404Body)) = "custom not found" /\
  body (writermem (serveError (gin := collaborators)
                     (set_handlers (fresh "GET" "/bar") [Abort 403]) 404
                     default404Body)) = "".
Proof.
  split; [| split].
  - destruct (serveError_default_body (gin := collaborators)
                (set_handlers (fresh "GET" "/bar") [Pass]) 404 default404Body)
      as (_ & Hdefault & _); [discriminate |].
    destruct Hdefault as (_ & Hbody & _); [reflexivity | reflexivity |].
    rewrite Hbody. reflexivity.
  - destruct (serveError_default_body (gin := collaborators)
                (set_handlers (fresh "GET" "/bar")
                   [WriteString 404 "custom not found"]) 404 default404Body)
      as (Hkept & _); [discriminate |].
    rewrite Hkept; reflexivity.
  - destruct (serveError_default_body (gin := collaborators)
                (set_handlers (fresh "GET" "/bar") [Abort 403]) 404
                default404Body)
      as (_ & _ & Hflushed & _); [discriminate |].
    destruct Hflushed as (_ & Hbody & _); [reflexivity | discriminate |].
    rewrite Hbody. reflexivity.
Defined.

(** What [serveError] does behind a middleware that aborts with 403: the
    chain writes nothing, and the response is the headers alone, with
    status 403 and an empty body. *)
Example serveError_after_abort :
  serve guarded_engine (fresh "GET" "/bar")
    = Served404 (serveError (gin := collaborators) rejected 404
                   default404Body) /\
  Written (after_chain (gin := collaborators) rejected 404) = false /\
  serveError (gin := collaborators) rejected 404 default404Body
    = mkContext (mkWriter 403 true ∅ "") (Request rejected) [] [Abort 403] 64.
Proof. repeat split. Qed.

(** C3, as the claim puts it, fails: behind a middleware that aborts with
    403 no handler writes, and yet the default body is not added. *)
Lemma default_body_not_iff_unwritten :
  ~ default_iff_unwritten (gin := collaborators) rejected 404 default404Body.
Proof.
  intros [_ Hadd].
  assert (Hbody : default_body_added (gin := collaborators) rejected 404
                    default404Body) by (apply Hadd; reflexivity).
  vm_compute in Hbody. discriminate Hbody.
Qed.

(** C1 on the code: with a [NoRoute] handler configured and a request for
    an unknown path, the 404 is served with the chain [allNoMethod] (here
    empty), not with [allNoRoute]; the configured handler never runs and
    the client gets the default body. *)
Theorem not_found_runs_allNoMethod :
  allNoRoute custom404_engine = [WriteString 404 "custom not found"] /\
  allNoMethod custom404_engine = [] /\
  serve custom404_engine missing
    = Served404 (serveError (gin := collaborators)
                   (set_handlers missing (allNoMethod custom404_engine)) 404
                   default404Body) /\
  serve custom404_engine missing
    <> Served404 (serveError (gin := collaborators)
                    (set_handlers missing (allNoRoute custom404_engine)) 404
                    default404Body) /\
  body (writermem (final_context (serve custom404_engine missing)))
    = "404 page not found" /\
  body (writermem (serveError (gin := collaborators)
                     (set_handlers missing (allNoRoute custom404_engine)) 404
                     default404Body))
    = "custom not found".
Proof.
  split; [reflexivity |]. split; [reflexivity |]. split; [reflexivity |].
  split; [vm_compute; discriminate |]. split; reflexivity.
Qed.

End Examples.

(** * Further properties of the engine *)

Lemma length_append (s t : string) :
  String.length (s +:+ t) = (String.length s + String.length t)%nat.
Proof.
  induction s as [| a s IH]; [reflexivity |].
  rewrite append_cons. simpl. now f_equal.
Qed.

Lemma length_prefix (n : nat) :
  forall s : string,
    (n <= String.length s)%nat -> String.length (String.substring 0 n s) = n.
Proof.
  induction n as [| n IH]; intros s Hn.
  - destruct s; reflexivity.
  - destruct s as [| a s]; simpl in *; [lia |].
    f_equal. apply IH. lia.
Qed.

Section Lookup.

(** [ByName] over two lists of pairs: the second is consulted only when
    no pair of the first carries the name. *)
Theorem ByName_app (ps qs : Params) (name : string) :
  ByName (ps ++ qs) name =
  if existsb (fun p => String.eqb (Key p) name) ps
  then ByName ps name
  else ByName qs name.
Proof.
  induction ps as [| p ps IH]; simpl; [reflexivity |].
  destruct (String.eqb (Key p) name); simpl; [reflexivity | exact IH].
Qed.

(** A result other than the empty string is the value of a pair of the
    list that carries the name. *)
Theorem ByName_sound (ps : Params) (name : string) :
  ByName ps name <> "" ->
  exists entry,
    In entry ps /\ Key entry = name /\ Value entry = ByName ps name.
Proof.
  induction ps as [| p ps IH]; simpl; [congruence |].
  destruct (String.eqb_spec (Key p) name) as [Hkey | Hkey].
  - intros _. exists p. auto.
  - intros Hne. destruct (IH Hne) as (entry & Hin & Hk & Hv).
    exists entry. auto.
Qed.

Lemma ByName_sound_witness :
  exists entry,
    In entry [mkParam "room" "hn"; mkParam "id" "42"] /\
    Key entry = "id" /\ Value entry = "42".
Proof.
  apply (ByName_sound [mkParam "room" "hn"; mkParam "id" "42"] "id").
  discriminate.
Defined.

End Lookup.

Section Routing.

Context `{gin : Collaborators}.

(** ** What the configuration calls leave alone *)

Lemma apply_call_frame (e : Engine HandlerFunc node)
    (call : config_call HandlerFunc) :
  trees (apply_call e call) = trees e /\
  RedirectTrailingSlash (apply_call e call) = RedirectTrailingSlash e /\
  RedirectFixedPath (apply_call e call) = RedirectFixedPath e /\
  HandleMethodNotAllowed (apply_call e call) = HandleMethodNotAllowed e.
Proof. destruct call; repeat split. Qed.

(** No sequence of [Use], [NoRoute] and [NoMethod] calls changes the
    trees or any of the three switches. *)
Theorem configure_frame (calls : list (config_call HandlerFunc))
    (e : Engine HandlerFunc node) :
  trees (configure e calls) = trees e /\
  RedirectTrailingSlash (configure e calls) = RedirectTrailingSlash e /\
  RedirectFixedPath (configure e calls) = RedirectFixedPath e /\
  HandleMethodNotAllowed (configure e calls) = HandleMethodNotAllowed e.
Proof.
  revert e. induction calls as [| call calls IH]; intros e; simpl.
  - repeat split.
  - destruct (IH (apply_call e call)) as (Ht & Hs & Hf & Hm).
    destruct (apply_call_frame e call) as (Ht' & Hs' & Hf' & Hm').
    repeat split; congruence.
Qed.

(** A second [NoRoute] (or [NoMethod]) replaces the handlers of the
    first; nothing of the earlier call is left. *)
Theorem NoRoute_NoMethod_replace (e : Engine HandlerFunc node)
    (first second : list HandlerFunc) :
  NoRoute (NoRoute e first) second = NoRoute e second /\
  NoMethod (NoMethod e first) second = NoMethod e second.
Proof. split; reflexivity. Qed.

(** [NoRoute], [NoMethod] and [Use] can be called in any order: the
    middleware of a later [Use] is combined into the chains of handlers
    given earlier. *)
Theorem config_calls_commute (e : Engine HandlerFunc node)
    (hs hs' mws : list HandlerFunc) :
  NoRoute (NoMethod e hs') hs = NoMethod (NoRoute e hs) hs' /\
  Use (NoRoute e hs) mws = NoRoute (Use e mws) hs /\
  Use (NoMethod e hs') mws = NoMethod (Use e mws) hs'.
Proof. repeat split. Qed.

(** What the dispatch reads of an engine: the trees, the three switches
    and [allNoMethod].  Two engines that agree on these serve every
    request alike; so the handlers given to [NoRoute] reach no response,
    the dispatch being the same with and without them. *)
Theorem NoRoute_no_effect_on_dispatch (c : Context HandlerFunc) :
  (forall e1 e2 : Engine HandlerFunc node,
      trees e1 = trees e2 ->
      allNoMethod e1 = allNoMethod e2 ->
      RedirectTrailingSlash e1 = RedirectTrailingSlash e2 ->
      RedirectFixedPath e1 = RedirectFixedPath e2 ->
      HandleMethodNotAllowed e1 = HandleMethodNotAllowed e2 ->
      serveHTTPRequest e1 c = serveHTTPRequest e2 c) /\
  (forall (e : Engine HandlerFunc node) (hs : list HandlerFunc),
      serveHTTPRequest (NoRoute e hs) c = serveHTTPRequest e c).
Proof.
  assert (Hreads : forall e1 e2 : Engine HandlerFunc node,
             trees e1 = trees e2 ->
             allNoMethod e1 = allNoMethod e2 ->
             RedirectTrailingSlash e1 = RedirectTrailingSlash e2 ->
             RedirectFixedPath e1 = RedirectFixedPath e2 ->
             HandleMethodNotAllowed e1 = HandleMethodNotAllowed e2 ->
             serveHTTPRequest e1 c = serveHTTPRequest e2 c).
  { intros e1 e2 Htrees Hchain Hslash Hfixed Hmethod.
    unfold serveHTTPRequest, serveFallback, serveAutoRedirect,
      other_method_matches.
    now rewrite Htrees, Hchain, Hslash, Hfixed, Hmethod. }
  split; [exact Hreads |].
  intros e hs. apply Hreads; reflexivity.
Qed.

(** ** Dispatch *)





(** An engine without trees answers every request with 404, running the
    chain [allNoMethod]. *)
Theorem no_routes_all_404 (e : Engine HandlerFunc node)
    (c : Context HandlerFunc) :
  trees e = ∅ ->
  serveHTTPRequest e c =
  Served404 (serveError (set_handlers c (allNoMethod e)) 404 default404Body).
Proof.
  intros Hempty.
  unfold serveHTTPRequest, serveFallback, other_method_matches.
  rewrite Hempty, lookup_empty, map_to_list_empty. simpl.
  now rewrite andb_false_r.
Qed.

(** No 405 is served when [HandleMethodNotAllowed] is off, nor when the
    request's method is the only one with a tree. *)
Theorem never_405 (e : Engine HandlerFunc node) (c : Context HandlerFunc) :
  HandleMethodNotAllowed e = false \/
  (forall method root,
      trees e !! method = Some root -> method = Method (Request c)) ->
  is_405 (serveHTTPRequest e c) = false.
Proof.
  intros Hoff.
  assert (Hcond : HandleMethodNotAllowed e
                  && other_method_matches e (Method (Request c))
                       (Path (URL (Request c))) = false).
  { destruct Hoff as [-> | Honly]; [reflexivity |].
    apply andb_false_iff. right.
    destruct (other_method_matches _ _ _) eqn:Hother; [| reflexivity].
    apply other_method_matches_spec in Hother
      as (method & root & hs & ps & tsr & Htree & Hne & _).
    exfalso. apply Hne. exact (Honly method root Htree). }
  assert (Hfall : forall c0,
             is_405 (serveFallback e c0 (Method (Request c))
                       (Path (URL (Request c)))) = false).
  { intros c0. unfold serveFallback. now rewrite Hcond. }
  unfold serveHTTPRequest.
  destruct (trees e !! Method (Request c)) as [root |]; [| apply Hfall].
  destruct (getValue root _ _) as [[[hs |] ps] tsr]; [reflexivity |].
  destruct (negb _ && negb _); [| apply Hfall].
  destruct (serveAutoRedirect e c root tsr) as [c' [|]];
    [reflexivity | apply Hfall].
Qed.

End Routing.

Section Redirects.

Context `{gin : Collaborators}.

(** With both redirect switches off the engine never redirects by
    itself. *)
Theorem redirects_off_no_redirect (e : Engine HandlerFunc node)
    (c c' : Context HandlerFunc) :
  RedirectTrailingSlash e = false ->
  RedirectFixedPath e = false ->
  serveHTTPRequest e c <> AutoRedirected c'.
Proof.
  intros Hslash Hfixed Hserved.
  apply serveHTTPRequest_redirected
    in Hserved as (_ & _ & root & ps & tsr & _ & _ & Hauto).
  unfold serveAutoRedirect in Hauto.
  rewrite Hslash, Hfixed, andb_false_r in Hauto. discriminate Hauto.
Qed.

(** The redirect to the fixed path: when the lookup finds no handlers,
    the trailing-slash redirect does not apply (no candidate, or the
    switch off), [RedirectFixedPath] is on and the case-insensitive search
    of the cleaned path finds a route, the request (not a CONNECT, not
    for the root) is redirected to the path found, with 301 for GET and
    307 otherwise. *)
Theorem fixed_path_redirect (e : Engine HandlerFunc node)
    (c : Context HandlerFunc) (root : node) (ps : Params) (tsr : bool)
    (fixedPath : string) :
  let httpMethod := Method (Request c) in
  let path := Path (URL (Request c)) in
  trees e !! httpMethod = Some root ->
  getValue root path (ctxParams c) = (None, ps, tsr) ->
  tsr && RedirectTrailingSlash e = false ->
  RedirectFixedPath e = true ->
  findCaseInsensitivePath root (CleanPath path) (RedirectTrailingSlash e)
    = (fixedPath, true) ->
  httpMethod <> "CONNECT" ->
  path <> "/" ->
  exists c',
    serveHTTPRequest e c = AutoRedirected c' /\
    Path (URL (Request c')) = fixedPath /\
    header (writermem c') !! "Location" =
      Some (URL_String (mkURL fixedPath (RawQuery (URL (Request c))))) /\
    (httpMethod = "GET" -> Status c' = 301) /\
    (httpMethod <> "GET" -> Status c' = 307).
Proof.
  intros httpMethod path Htree Hget Hslash Hfixed Hfound Hm Hp.
  eexists. split.
  - unfold serveHTTPRequest. fold httpMethod path. rewrite Htree, Hget.
    apply String.eqb_neq in Hm, Hp. rewrite Hm, Hp. simpl.
    unfold serveAutoRedirect. fold path.
    rewrite Hslash, Hfixed, Hfound. reflexivity.
  - cbn [http_Redirect set_writer set_Request set_Path writermem Request URL
           Path RawQuery Status status header Method].
    split; [reflexivity |].
    split; [apply lookup_insert_eq |].
    apply redirect_code_spec.
Qed.

(** When neither redirect applies the request goes on to the 405/404
    fallback as it came: no candidate for the trailing slash (or the
    switch off), and the fixed path off or without a match. *)
Theorem no_candidate_falls_through (e : Engine HandlerFunc node)
    (c : Context HandlerFunc) (root : node) (ps : Params) (tsr : bool) :
  let httpMethod := Method (Request c) in
  let path := Path (URL (Request c)) in
  trees e !! httpMethod = Some root ->
  getValue root path (ctxParams c) = (None, ps, tsr) ->
  tsr && RedirectTrailingSlash e = false ->
  RedirectFixedPath e = false \/
  snd (findCaseInsensitivePath root (CleanPath path)
         (RedirectTrailingSlash e)) = false ->
  serveHTTPRequest e c = serveFallback e c httpMethod path.
Proof.
  intros httpMethod path Htree Hget Hslash Hnofix.
  unfold serveHTTPRequest. fold httpMethod path. rewrite Htree, Hget.
  destruct (negb _ && negb _); [| reflexivity].
  unfold serveAutoRedirect. fold path. rewrite Hslash.
  destruct Hnofix as [-> | Hnone]; [reflexivity |].
  destruct (RedirectFixedPath e); [| reflexivity].
  destruct (findCaseInsensitivePath _ _ _) as [fixedPath found].
  simpl in Hnone. now rewrite Hnone.
Qed.


(** The trailing-slash rewrite never gives back the path it was given:
    the result is one byte shorter or one byte longer. *)
Theorem toggle_slash_changes_path (path : string) :
  toggle_slash path <> path /\
  (String.length (toggle_slash path) = String.length path - 1 \/
   String.length (toggle_slash path) = String.length path + 1)%nat.
Proof.
  assert (Hlen : ((String.length (toggle_slash path) = String.length path - 1
                   /\ 1 < String.length path) \/
                  String.length (toggle_slash path) = String.length path + 1)%nat).
  { unfold toggle_slash, drop_last.
    destruct (Nat.ltb_spec 1 (String.length path)) as [Hlong | Hshort];
      simpl.
    - destruct (last_is_slash path).
      + left. split; [| exact Hlong].
        apply length_prefix. lia.
      + right. rewrite length_append. reflexivity.
    - right. rewrite length_append. reflexivity. }
  split.
  - intros Heq. rewrite Heq in Hlen. lia.
  - destruct Hlen as [[Hl _] | Hl]; auto.
Qed.

End Redirects.

Section Registration.

Context `{gin : Collaborators}.

(** A registration that succeeds stores the root [addRoute] returned under
    its method and changes nothing else: the trees of the other methods,
    the middleware, the error chains and the switches are as before. *)
Theorem handle_ok_frame (e e' : Engine HandlerFunc node)
    (method path : string) (hs : list HandlerFunc) :
  handle e method path hs = Ok e' ->
  exists root',
    addRoute (match trees e !! method with
              | Some r => r
              | None => new_node
              end) path hs = inr root' /\
    trees e' !! method = Some root' /\
    (forall other, other <> method -> trees e' !! other = trees e !! other) /\
    group e' = group e /\
    allNoRoute e' = allNoRoute e /\ allNoMethod e' = allNoMethod e /\
    noRoute e' = noRoute e /\ noMethod e' = noMethod e /\
    RedirectTrailingSlash e' = RedirectTrailingSlash e /\
    RedirectFixedPath e' = RedirectFixedPath e /\
    HandleMethodNotAllowed e' = HandleMethodNotAllowed e.
Proof.
  unfold handle. destruct path as [| ch rest]; [discriminate |].
  destruct (negb _); [discriminate |].
  destruct (addRoute _ _ _) as [msg | root']; [discriminate |].
  intros [= <-]. exists root'. simpl.
  split; [reflexivity |].
  split; [apply lookup_insert_eq |].
  split; [intros other Hne; now apply lookup_insert_ne |].
  repeat split.
Qed.

(** Two registrations under one method build one tree: the second
    extends the root the first left, and the map then holds the root of
    the second. *)
Theorem handle_accumulates (e e1 e2 : Engine HandlerFunc node)
    (method path1 path2 : string) (hs1 hs2 : list HandlerFunc) :
  handle e method path1 hs1 = Ok e1 ->
  handle e1 method path2 hs2 = Ok e2 ->
  exists root1 root2,
    addRoute (match trees e !! method with
              | Some r => r
              | None => new_node
              end) path1 hs1 = inr root1 /\
    addRoute root1 path2 hs2 = inr root2 /\
    trees e2 = <[method := root2]> (trees e).
Proof.
  unfold handle.
  destruct path1 as [| ch1 rest1]; [discriminate |].
  destruct (negb _); [discriminate |].
  destruct (addRoute _ (String ch1 rest1) hs1) as [msg | root1];
    [discriminate |].
  intros [= <-]. simpl.
  destruct path2 as [| ch2 rest2]; [discriminate |].
  destruct (negb _); [discriminate |].
  rewrite lookup_insert_eq.
  destruct (addRoute root1 (String ch2 rest2) hs2) as [msg | root2] eqn:Hadd;
    [discriminate |].
  intros [= <-]. exists root1, root2. simpl.
  split; [reflexivity |]. split; [exact Hadd |].
  apply insert_insert_eq.
Qed.

(** ** Error responses *)

(** The response to an error when the chain leaves the writer alone and
    nothing was written before: the status is the error code, the body
    is the default body after what was there, the content type is
    [MIMEPlain] and the other headers are kept. *)
Theorem untouched_error_response (c : Context HandlerFunc) (code : Z)
    (msg : string) :
  let c0 := set_writer c (set_status (writermem c) code) in
  written (writermem c) = false ->
  writermem (Next c0) = writermem c0 ->
  writermem (serveError c code msg) =
  mkWriter code true (<["Content-Type" := MIMEPlain]> (header (writermem c)))
    (body (writermem c) +:+ msg).
Proof.
  intros c0 Hfresh Hsame. unfold serveError. fold c0.
  unfold Written, Status. rewrite Hsame. simpl.
  rewrite Hfresh, Z.eqb_refl. simpl.
  unfold Context_Data. rewrite Hsame. reflexivity.
Qed.

(** ** [Default] *)

(** [Default] differs from [New] by its middleware only: the switches are
    on, there is no tree, both error chains are the middleware combined
    with no handlers, and every request is answered 404 behind that
    chain. *)
Theorem Default_engine (recovery logger : HandlerFunc) :
  let e := Default recovery logger in
  group e = RouterGroup_Use (group New) [recovery; logger] /\
  RedirectTrailingSlash e = true /\
  RedirectFixedPath e = true /\
  HandleMethodNotAllowed e = true /\
  trees e = ∅ /\
  allNoRoute e = combineHandlers (group e) [] /\
  allNoMethod e = combineHandlers (group e) [] /\
  (forall c,
      serveHTTPRequest e c =
      Served404 (serveError (set_handlers c (combineHandlers (group e) []))
                   404 default404Body)).
Proof.
  repeat split.
Qed.

End Registration.

(** * The chat example *)

Section Chat.

Import Routes.

Lemma prefix_of_append (p t : string) :
  String.substring 0 (String.length p) (p +:+ t) = p.
Proof.
  induction p as [| a p IH]; [destruct t; reflexivity |].
  rewrite append_cons. simpl. now f_equal.
Qed.

Lemma roomGET_nick_cases (nick : string) :
  ((String.length nick < 2)%nat /\ roomGET_nick nick = "") \/
  ((2 <= String.length nick <= 13)%nat /\ roomGET_nick nick = nick) \/
  ((13 < String.length nick)%nat /\
   roomGET_nick nick = String.substring 0 12 nick +:+ "..." /\
   String.length (String.substring 0 12 nick) = 12%nat).
Proof.
  unfold roomGET_nick.
  destruct (Nat.ltb_spec (String.length nick) 2) as [Hshort | Hlong].
  - left. split; [exact Hshort | reflexivity].
  - destruct (Nat.ltb_spec 13 (String.length nick)) as [Hover | Hfits].
    + right. right. split; [exact Hover |]. split; [reflexivity |].
      apply length_prefix. lia.
    + right. left. split; [lia | reflexivity].
Qed.

(** The nick [roomGET] shows is never longer than 15 bytes; a nick of 2
    to 13 bytes is shown as it is, a shorter one is dropped, and a longer
    one is cut to its first 12 bytes and three dots. *)
Theorem roomGET_nick_bounded (nick : string) :
  (String.length (roomGET_nick nick) <= 15)%nat /\
  ((String.length nick < 2)%nat -> roomGET_nick nick = "") /\
  ((2 <= String.length nick <= 13)%nat -> roomGET_nick nick = nick) /\
  ((13 < String.length nick)%nat ->
   String.length (roomGET_nick nick) = 15%nat /\
   String.substring 0 12 (roomGET_nick nick) = String.substring 0 12 nick).
Proof.
  destruct (roomGET_nick_cases nick)
    as [[Hlen Hr] | [[Hlen Hr] | (Hlen & Hr & Hcut)]]; rewrite Hr.
  - repeat split; intros; simpl; try lia; reflexivity.
  - repeat split; intros; try lia; reflexivity.
  - assert (Hfifteen :
              String.length (String.substring 0 12 nick +:+ "...") = 15%nat).
    { rewrite length_append, Hcut. reflexivity. }
    repeat split; intros; try lia.
    rewrite <- Hcut at 1. apply prefix_of_append.
Qed.

(** Cutting a nick twice is cutting it once. *)
Theorem roomGET_nick_idempotent (nick : string) :
  roomGET_nick (roomGET_nick nick) = roomGET_nick nick.
Proof.
  destruct (roomGET_nick_cases nick)
    as [[Hlen Hr] | [[Hlen Hr] | (Hlen & Hr & Hcut)]].
  - rewrite Hr. reflexivity.
  - rewrite Hr. exact Hr.
  - rewrite Hr.
    assert (Hfifteen :
              String.length (String.substring 0 12 nick +:+ "...") = 15%nat).
    { rewrite length_append, Hcut. reflexivity. }
    unfold roomGET_nick at 1. cbv zeta.
    rewrite Hfifteen. cbn [Nat.ltb Nat.leb]. rewrite Hfifteen.
    cbn [Nat.ltb Nat.leb].
    f_equal. rewrite <- Hcut at 1. apply prefix_of_append.
Qed.

(** [roomPOST] accepts the nick [roomGET] shows exactly when it accepts
    the nick as it was typed; a nick that [roomGET] cut is refused. *)
Theorem roomPOST_accepts_shown_nick (nick message : string) :
  roomPOST_accepts (roomGET_nick nick) message = roomPOST_accepts nick message /\
  ((13 < String.length nick)%nat ->
   roomPOST_accepts (roomGET_nick nick) message = false).
Proof.
  assert (Hvalid : validNick (roomGET_nick nick) = validNick nick /\
                   ((13 < String.length nick)%nat ->
                    validNick (roomGET_nick nick) = false)).
  { destruct (roomGET_nick_cases nick)
      as [[Hlen Hr] | [[Hlen Hr] | (Hlen & Hr & Hcut)]]; rewrite Hr.
    - split; [| lia]. unfold validNick.
      destruct (Nat.ltb_spec 1 (String.length nick)); [lia | reflexivity].
    - split; [reflexivity | lia].
    - unfold validNick. rewrite length_append, Hcut. simpl.
      split; [| reflexivity].
      destruct (Nat.ltb_spec (String.length nick) 14); [lia |].
      now rewrite andb_false_r. }
  destruct Hvalid as [Hsame Hcut]. unfold roomPOST_accepts. split.
  - now rewrite Hsame.
  - intros Hlen. rewrite (Hcut Hlen). simpl. now rewrite orb_true_r.
Qed.

End Chat.

(** * The further properties on concrete requests *)

Section MoreExamples.

Import Sample Fixtures.

Local Abbreviation serve := (serveHTTPRequest (gin := collaborators)).

Lemma NoRoute_no_effect_on_dispatch_witness :
  serve custom404_engine missing = serve foo_engine missing /\
  serve custom404_engine (fresh "GET" "/foo/")
    = serve foo_engine (fresh "GET" "/foo/").
Proof.
  split.
  - apply (proj2 (NoRoute_no_effect_on_dispatch (gin := collaborators)
                    missing) foo_engine [WriteString 404 "custom not found"]).
  - apply (proj1 (NoRoute_no_effect_on_dispatch (gin := collaborators)
                    (fresh "GET" "/foo/")) custom404_engine foo_engine);
      reflexivity.
Defined.

Lemma no_routes_all_404_witness :
  serve New (fresh "GET" "/")
    = Served404 (serveError (gin := collaborators)
                   (set_handlers (fresh "GET" "/") []) 404 default404Body).
Proof.
  apply (no_routes_all_404 (gin := collaborators) New (fresh "GET" "/")).
  reflexivity.
Defined.

Lemma never_405_witness :
  is_405 (serve strict_engine (fresh "POST" "/foo")) = false /\
  is_405 (serve foo_engine (fresh "GET" "/bar")) = false.
Proof.
  split.
  - apply (never_405 (gin := collaborators) strict_engine
             (fresh "POST" "/foo")).
    left. reflexivity.
  - apply (never_405 (gin := collaborators) foo_engine (fresh "GET" "/bar")).
    right. intros method root.
    change (trees foo_engine)
      with (<["GET" := [("/foo", [WriteString 200 "foo"])]]>
              (∅ : gmap string table)).
    destruct (decide (method = "GET")) as [-> | Hne]; [reflexivity |].
    rewrite lookup_insert_ne by congruence.
    rewrite lookup_empty. discriminate.
Defined.

Lemma redirects_off_no_redirect_witness :
  RedirectTrailingSlash strict_engine = false /\
  (forall c', serve strict_engine (fresh "GET" "/foo/") <> AutoRedirected c') /\
  (forall c', serve strict_engine (fresh "GET" "/FOO") <> AutoRedirected c').
Proof.
  split; [reflexivity |]. split; intros c'.
  - apply (redirects_off_no_redirect (gin := collaborators) strict_engine
             (fresh "GET" "/foo/") c'); reflexivity.
  - apply (redirects_off_no_redirect (gin := collaborators) strict_engine
             (fresh "GET" "/FOO") c'); reflexivity.
Defined.

Lemma fixed_path_redirect_witness :
  exists c',
    serve foo_engine (fresh "GET" "/FOO") = AutoRedirected c' /\
    header (writermem c') !! "Location" = Some "/foo" /\
    Status c' = 301.
Proof.
  destruct (fixed_path_redirect (gin := collaborators) foo_engine
              (fresh "GET" "/FOO") [("/foo", [WriteString 200 "foo"])] []
              false "/foo")
    as (c' & Hserved & _ & Hloc & Hget & _);
    [reflexivity | reflexivity | reflexivity | reflexivity | reflexivity
    | discriminate | discriminate |].
  exists c'. split; [exact Hserved |]. split; [exact Hloc |].
  apply Hget. reflexivity.
Defined.

Lemma no_candidate_falls_through_witness :
  serve foo_engine (fresh "GET" "/bar")
    = serveFallback (gin := collaborators) foo_engine (fresh "GET" "/bar")
        "GET" "/bar".
Proof.
  apply (no_candidate_falls_through (gin := collaborators) foo_engine
           (fresh "GET" "/bar") [("/foo", [WriteString 200 "foo"])] [] false);
    [reflexivity | reflexivity | reflexivity | right; reflexivity].
Defined.


Lemma handle_ok_frame_witness :
  exists root',
    trees foo_engine !! "GET" = Some root' /\
    trees foo_engine !! "POST" = None /\
    HandleMethodNotAllowed foo_engine = true.
Proof.
  destruct (handle_ok_frame (gin := collaborators) New foo_engine "GET" "/foo"
              [WriteString 200 "foo"])
    as (root' & _ & Htree & Hother & _ & _ & _ & _ & _ & _ & _ & Hswitch);
    [reflexivity |].
  exists root'. split; [exact Htree |]. split.
  - etransitivity; [apply Hother; discriminate | reflexivity].
  - etransitivity; [exact Hswitch | reflexivity].
Defined.

Lemma handle_accumulates_witness :
  exists root1 root2,
    Sample.addRoute root1 "/bar" [Pass] = inr root2 /\
    trees two_routes = <["GET" := root2]> ∅ /\
    root2 = [("/foo", [WriteString 200 "foo"]); ("/bar", [Pass])].
Proof.
  destruct (handle_accumulates (gin := collaborators) New foo_engine
              two_routes "GET" "/foo" "/bar" [WriteString 200 "foo"] [Pass])
    as (root1 & root2 & Hfirst & Hsecond & Htrees);
    [reflexivity | reflexivity |].
  exists root1, root2. split; [exact Hsecond |]. split; [exact Htrees |].
  injection Hfirst as <-. injection Hsecond as <-. reflexivity.
Defined.

Lemma untouched_error_response_witness :
  writermem (serveError (gin := collaborators) observed 404 default404Body)
    = mkWriter 404 true {["Content-Type" := "text/plain"]}
        "404 page not found".
Proof.
  apply (untouched_error_response (gin := collaborators) observed 404
           default404Body); reflexivity.
Defined.

Lemma roomGET_nick_bounded_witness :
  Routes.roomGET_nick "x" = "" /\
  Routes.roomGET_nick "alexandernyq" = "alexandernyq" /\
  String.length (Routes.roomGET_nick "alexandernyquist") = 15%nat.
Proof.
  destruct (roomGET_nick_bounded "x") as (_ & Hshort & _).
  destruct (roomGET_nick_bounded "alexandernyq") as (_ & _ & Hfits & _).
  destruct (roomGET_nick_bounded "alexandernyquist")
    as (_ & _ & _ & Hcut).
  split; [apply Hshort; simpl; lia |].
  split; [apply Hfits; simpl; lia |].
  apply Hcut. simpl. lia.
Defined.

Lemma roomPOST_accepts_shown_nick_witness :
  Routes.roomPOST_accepts (Routes.roomGET_nick "alexandernyquist") "hello"
    = false.
Proof.
  apply (roomPOST_accepts_shown_nick "alexandernyquist" "hello").
  simpl. lia.
Defined.

End MoreExamples.
